(** * VSOP87 series evaluation of [precompute.py]

    A shallow embedding of [extractCoefficients], [computeTerm] and
    [getPlanetPosition] from [src/precompute.py], the properties of the
    series evaluation engine that the specification states about them, and
    further properties read off the code.

    The functions are embedded twice.
    - Over the real numbers ([computeTerm], [getPlanetPosition], ...):
      Python floats are idealised as reals, every arithmetic operation is the
      exact one, [math.cos] is [cos], and the integer [0] the buckets start
      from is the real [0].  Rounding, signed zeros, infinities, NaN and the
      exceptions of [math.cos] and [pow] are outside this embedding; it
      carries the statements about lines, tokens, indices and their
      exceptions, which do not depend on them.
    - Over IEEE 754 binary64 (module [B64]): the arithmetic is that of
      [SpecFloat], and [math.cos] and [pow] are parameters that may raise.
      It carries the statements that depend on what a float is.

    Further conventions.
    - A Python [str] is a [string]; its characters are the code points
      0..255.
    - The builtin [float] on strings is a parameter of the development
      ([None] is [ValueError]); [dec_float] and [B64.dec_float] are instances
      for decimal literals, used to run the code on concrete tables.
    - A raised exception is a result [Raise e]; the module-level list
      [indata] is the only global state the engine touches and is threaded
      explicitly through [getPlanetPosition].  Reading the input files and
      writing the output files are outside the model. *)

From Stdlib Require Import String Ascii ZArith Reals Lra Lia SpecFloat.
From stdpp Require Import base list.

Local Open Scope string_scope.
Local Open Scope Z_scope.

(** ** Exceptions and results *)

Inductive exn : Type :=
| IndexError
| ValueError
| OverflowError.

Inductive res (A : Type) : Type :=
| Ok (a : A)
| Raise (e : exn).

Arguments Ok {A} a.
Arguments Raise {A} e.

Definition res_bind {A B : Type} (c : res A) (k : A -> res B) : res B :=
  match c with
  | Ok a => k a
  | Raise e => Raise e
  end.

Notation "x <- c ;; k" := (res_bind c (fun x => k))
  (at level 100, c at next level, right associativity).

(** [o] when it is there, the exception [e] otherwise. *)
Definition or_raise {A : Type} (e : exn) (o : option A) : res A :=
  match o with
  | Some a => Ok a
  | None => Raise e
  end.


(** ** Strings *)

Module Str.

(** The characters [str.split()] splits on, among the code points below
    256: U+0009..U+000D, U+001C..U+0020, U+0085 and U+00A0. *)
Definition is_space (c : ascii) : bool :=
  let n := nat_of_ascii c in
  ((9 <=? n) && (n <=? 13) || (28 <=? n) && (n <=? 32)
   || (n =? 133) || (n =? 160))%nat.

Definition flush (tok : string) : list string :=
  match tok with
  | EmptyString => []
  | _ => [tok]
  end.

(** [tok] is the token being read, in order. *)
Fixpoint split_from (tok : string) (s : string) : list string :=
  match s with
  | EmptyString => flush tok
  | String c s' =>
      if is_space c then flush tok ++ split_from EmptyString s'
      else split_from (tok ++ String c EmptyString) s'
  end.

(** [s.split()]: the maximal runs of characters that are not white
    space. *)
Definition split (s : string) : list string := split_from EmptyString s.

(** [s[i]] for an index [i >= 0]. *)
Definition index (s : string) (i : nat) : res ascii :=
  or_raise IndexError (String.get i s).

(** [int(c)] of a one-character string. *)
Definition int_of_char (c : ascii) : res Z :=
  let n := nat_of_ascii c in
  if ((48 <=? n) && (n <=? 57))%nat then Ok (Z.of_nat n - 48)
  else Raise ValueError.

End Str.

(** ** Python lists *)

Module PyList.

(** The position an index denotes in a list of [n] items: negative
    indices count from the end. *)
Definition position (n : nat) (i : Z) : option nat :=
  if 0 <=? i then
    (if i <? Z.of_nat n then Some (Z.to_nat i) else None)
  else
    (if - Z.of_nat n <=? i then Some (Z.to_nat (Z.of_nat n + i)) else None).

(** [l[i]] *)
Definition get {A : Type} (l : list A) (i : Z) : res A :=
  match position (length l) i with
  | Some k => or_raise IndexError (l !! k)
  | None => Raise IndexError
  end.

(** [l[i] = x] *)
Definition set {A : Type} (l : list A) (i : Z) (x : A) : res (list A) :=
  match position (length l) i with
  | Some k => Ok (<[k := x]> l)
  | None => Raise IndexError
  end.

(** [l[-3:]] *)
Definition last3 {A : Type} (l : list A) : list A :=
  drop (length l - 3) l.

(** [l.index(x)] *)
Fixpoint index_of (l : list string) (x : string) : res Z :=
  match l with
  | [] => Raise ValueError
  | y :: l' =>
      if String.eqb y x then Ok 0
      else (i <- index_of l' x ;; Ok (i + 1))
  end.

End PyList.

(** ** The series evaluation engine *)

(** [planetNames], the module-level list of [precompute.py]. *)
Definition planetNames : list string :=
  ["MERCURY"; "VENUS"; "EARTH"; "MARS";
   "JUPITER"; "SATURN"; "URANUS"; "NEPTUNE"].

(** The variables of the loop of [getPlanetPosition]. *)
Record locals : Type := Locals {
  sums : list (list R);
  currentVar : Z;
  currentTerm : Z
}.

Definition zero_row : list R := [0; 0; 0; 0; 0; 0]%R.

(** The state before the first line: three rows of six zeros, variable 0,
    degree 0. *)
Definition initial : locals :=
  {| sums := [zero_row; zero_row; zero_row];
     currentVar := 0;
     currentTerm := 0 |}.

(** [line.split()[-3:]] *)
Definition extractCoefficients (line : string) : list string :=
  PyList.last3 (Str.split line).

(** The two assignments of the header branch:
    [int(sublines[5][0]) - 1] and [int(sublines[7][4])], in this order. *)
Definition header_indices (line : string) : res (Z * Z) :=
  let sublines := Str.split line in
  t5 <- PyList.get sublines 5 ;;
  c5 <- Str.index t5 0 ;;
  v <- Str.int_of_char c5 ;;
  t7 <- PyList.get sublines 7 ;;
  c7 <- Str.index t7 4 ;;
  d <- Str.int_of_char c7 ;;
  Ok (v - 1, d).

(** [T = (jde - 2451545) / 365250.0] *)
Definition time_argument (jde : R) : R := ((jde - 2451545) / 365250)%R.

Section Engine.

(** The builtin [float] on a token. *)
Variable float : string -> option R.

Definition to_float (tok : string) : res R := or_raise ValueError (float tok).

(** [float(c[0]) * math.cos(float(c[1]) + float(c[2]) * T)], the operands
    evaluated left to right.  Over the reals [math.cos] always returns; the
    [ValueError] it raises at an infinite argument is in [B64.computeTerm]. *)
Definition computeTerm (line : string) (T : R) : res R :=
  let c := extractCoefficients line in
  c0 <- PyList.get c 0 ;;
  A <- to_float c0 ;;
  c1 <- PyList.get c 1 ;;
  B <- to_float c1 ;;
  c2 <- PyList.get c 2 ;;
  C <- to_float c2 ;;
  Ok (A * cos (B + C * T))%R.

(** [sums[currentVar][currentTerm] += computeTerm(line, T)]: the old value
    of the bucket is read before the term is computed, and the sum is
    stored in the row that was read. *)
Definition accumulate (T : R) (st : locals) (line : string) : res locals :=
  row <- PyList.get (sums st) (currentVar st) ;;
  old <- PyList.get row (currentTerm st) ;;
  x <- computeTerm line T ;;
  row' <- PyList.set row (currentTerm st) (old + x)%R ;;
  sums' <- PyList.set (sums st) (currentVar st) row' ;;
  Ok {| sums := sums';
        currentVar := currentVar st;
        currentTerm := currentTerm st |}.

(** One iteration of the [for] loop. *)
Definition loop_body (T : R) (st : locals) (line : string) : res locals :=
  if (String.length line =? 0)%nat then Ok st
  else
    c <- Str.index line 1 ;;
    if Ascii.eqb c "V" then
      vd <- header_indices line ;;
      Ok {| sums := sums st; currentVar := fst vd; currentTerm := snd vd |}
    else accumulate T st line.

(** The [for] loop over the lines of the table. *)
Fixpoint run_lines (T : R) (st : locals) (lines : list string) : res locals :=
  match lines with
  | [] => Ok st
  | line :: rest => st' <- loop_body T st line ;; run_lines T st' rest
  end.

(** One item of the returned list:
    [sums[v][0] + sums[v][1] * T + sums[v][2] * pow(T, 2) +
     sums[v][3] * pow(T, 3) + sums[v][4] * pow(T, 4)].
    Over the reals [pow] always returns; its [OverflowError] and the NaN of
    [inf * 0.0] are in [B64.coordinate]. *)
Definition coordinate (s : list (list R)) (T : R) (v : Z) : res R :=
  row <- PyList.get s v ;;
  s0 <- PyList.get row 0 ;;
  s1 <- PyList.get row 1 ;;
  s2 <- PyList.get row 2 ;;
  s3 <- PyList.get row 3 ;;
  s4 <- PyList.get row 4 ;;
  Ok (s0 + s1 * T + s2 * T ^ 2 + s3 * T ^ 3 + s4 * T ^ 4)%R.

Definition position_of (s : list (list R)) (T : R) : res (list R) :=
  x <- coordinate s T 0 ;;
  y <- coordinate s T 1 ;;
  z <- coordinate s T 2 ;;
  Ok [x; y; z].

(** The body of [getPlanetPosition] once [indata[pI]] is at hand. *)
Definition evaluate (table : list string) (jde : R) : res (list R) :=
  let T := time_argument jde in
  st <- run_lines T initial table ;;
  position_of (sums st) T.

End Engine.

(** ** Global state *)

(** [indata]: per planet, the lines of its file. *)
Record globals : Type := Globals {
  indata : list (list string)
}.

(** A computation that may read and write the globals and may raise. *)
Definition M (A : Type) : Type := globals -> res A * globals.

Definition m_bind {A B : Type} (c : M A) (k : A -> M B) : M B :=
  fun g =>
    match c g with
    | (Ok a, g') => k a g'
    | (Raise e, g') => (Raise e, g')
    end.

(** A computation that does not touch the globals. *)
Definition lift {A : Type} (r : res A) : M A := fun g => (r, g).

(** [indata[pI]] *)
Definition read_table (pI : Z) : M (list string) :=
  fun g => (PyList.get (indata g) pI, g).

Notation "x <~ c ;; k" := (m_bind c (fun x => k))
  (at level 100, c at next level, right associativity).

Definition getPlanetPosition (float : string -> option R)
    (planetName : string) (jde : R) : M (list R) :=
  pI <~ lift (PyList.index_of planetNames planetName) ;;
  table <~ read_table pI ;;
  lift (evaluate float table jde).

Definition result_of {A : Type} (c : M A) (g : globals) : res A := fst (c g).
Definition globals_after {A : Type} (c : M A) (g : globals) : globals :=
  snd (c g).

(** ** Decimal literals *)

(** An instance of [float]: an optional sign, digits with an optional
    fraction, an optional exponent. *)
Module Dec.

Definition digit (c : ascii) : option Z :=
  let n := nat_of_ascii c in
  if ((48 <=? n) && (n <=? 57))%nat then Some (Z.of_nat n - 48) else None.

(** Reads digits off the front of [s]: the number read so far, how many
    digits, and what is left. *)
Fixpoint digits (acc : Z) (n : nat) (s : string) : Z * nat * string :=
  match s with
  | EmptyString => (acc, n, s)
  | String c s' =>
      match digit c with
      | Some d => digits (10 * acc + d) (S n) s'
      | None => (acc, n, s)
      end
  end.

Definition sign (s : string) : Z * string :=
  match s with
  | String "-" s' => (-1, s')
  | String "+" s' => (1, s')
  | _ => (1, s)
  end.

Definition exponent (s : string) : option Z :=
  match s with
  | EmptyString => Some 0
  | String c s' =>
      if (Ascii.eqb c "e" || Ascii.eqb c "E")%bool then
        let '(sg, s1) := sign s' in
        match digits 0 0 s1 with
        | (_, O, _) => None
        | (e, _, EmptyString) => Some (sg * e)
        | _ => None
        end
      else None
  end.

(** [Some (m, e)] stands for [m * 10 ^ e]. *)
Definition parse (s : string) : option (Z * Z) :=
  let '(sg, s0) := sign s in
  let '(ip, ni, s1) := digits 0 0 s0 in
  let '(m, nf, s2) :=
    match s1 with
    | String "." s1' => digits ip 0 s1'
    | _ => (ip, O, s1)
    end in
  match (ni + nf)%nat with
  | O => None
  | _ =>
      match exponent s2 with
      | Some e => Some (sg * m, e - Z.of_nat nf)
      | None => None
      end
  end.

End Dec.

Definition dec_float (s : string) : option R :=
  match Dec.parse s with
  | Some (m, e) => Some (IZR m * powerRZ 10 e)%R
  | None => None
  end.

(** ** Vocabulary of the statements *)

(** The value in bucket (variable [v], degree [d]). *)
Definition bucket (s : list (list R)) (v d : nat) : R :=
  nth d (nth v s []) 0%R.

(** Three rows of six buckets. *)
Definition shaped (s : list (list R)) : Prop :=
  length s = 3%nat /\ Forall (fun row => length row = 6%nat) s.

(** What the loop does with a line, decided by its first two characters. *)
Inductive kind : Type :=
| Blank    (* no character at all *)
| Short    (* one character: [line[1]] does not exist *)
| Header   (* [line[1] == 'V'] *)
| Data.    (* any other line *)

Definition classify (line : string) : kind :=
  match line with
  | EmptyString => Blank
  | String _ EmptyString => Short
  | String _ (String c _) => if Ascii.eqb c "V" then Header else Data
  end.

(** The polynomial the function returns for variable [v]: degrees 0 to 4. *)
Definition returned_polynomial (s : list (list R)) (T : R) (v : nat) : R :=
  (bucket s v 0 + bucket s v 1 * T + bucket s v 2 * T ^ 2
   + bucket s v 3 * T ^ 3 + bucket s v 4 * T ^ 4)%R.

(** Following the specification: the sum over all six degrees,
    [degree_sum[v][0] * T^0 + ... + degree_sum[v][5] * T^5]. *)
Definition spec_polynomial (s : list (list R)) (T : R) (v : nat) : R :=
  fold_right (fun d acc => (bucket s v d * T ^ d + acc)%R) 0%R (seq 0 6).

(** The same computation run twice in a row. *)
Definition twice {A : Type} (c : M A) : M (A * A) :=
  a <~ c ;; b <~ c ;; lift (Ok (a, b)).

(** ** Sample tables *)

(** A header line of a VSOP87 file, for variable 1 and the degree [d]. *)
Definition sample_header (d : string) : string :=
  " VSOP87 VERSION C3    EARTH     VARIABLE 1 (XYZ)       *T**" ++ d
  ++ "      1 TERMS    HELIOCENTRIC DYNAMICAL ECLIPTIC AND EQUINOX OF THE DATE".

(** A data line with amplitude 1, phase 0 and frequency 0. *)
Definition sample_term : string := "1.0 0.0 0.0".

(** A data line as the VSOP87 files have them, nineteen tokens, the last
    three being amplitude 1, phase 0 and frequency 0. *)
Definition sample_long_term : string :=
  " 3310    1  0  0  1  0  0  0  0  0  0  0  0     -0.00000015626"
  ++ "      0.00000146267     0.00000021394 1.0 0.0 0.0".

(** Globals in which [table] is the first planet's. *)
Definition sample_globals (table : list string) : globals :=
  {| indata := [table] |}.

(** ** Characters of a string *)

(** Every character of [s] is white space. *)
Fixpoint all_spaces (s : string) : bool :=
  match s with
  | EmptyString => true
  | String c s' => Str.is_space c && all_spaces s'
  end.

(** No character of [s] is white space. *)
Fixpoint no_spaces (s : string) : bool :=
  match s with
  | EmptyString => true
  | String c s' => negb (Str.is_space c) && no_spaces s'
  end.

(** A token as [str.split()] gives them: not empty, no white space. *)
Definition token (t : string) : Prop := t <> EmptyString /\ no_spaces t = true.

(** A header line of a VSOP87 file for the variable digit [v] and the
    degree digit [d]. *)
Definition header_for (v d : string) : string :=
  " VSOP87 VERSION C3    EARTH     VARIABLE " ++ v ++ " (XYZ)       *T**" ++ d
  ++ "      1 TERMS    HELIOCENTRIC DYNAMICAL ECLIPTIC AND EQUINOX OF THE DATE".

(** ** How a computation ends *)

(** The exception a result carries, if any. *)
Definition outcome {A : Type} (r : res A) : option exn :=
  match r with
  | Ok _ => None
  | Raise e => Some e
  end.

(** [jdeMax = 1e5]; the script uses it through [int(jdeMax)] and
    [int(jdeMax + 1)] only. *)
Definition jdeMax : Z := 100000.

Definition newline : string := String (ascii_of_nat 10) EmptyString.

(** [range(int(n))] *)
Definition jde_range (n : Z) : list Z := map Z.of_nat (seq 0 (Z.to_nat n)).

(** ** Binary64 semantics

    The same functions with Python's floats as they are: IEEE 754 binary64
    values ([spec_float] at precision 53 and [emax = 1024]) under the
    operations of [SpecFloat], which round to nearest, ties to even.  The
    builtins that go through the C library, [math.cos] and [pow], are
    parameters that may raise, as is [float]; a Python [int] that meets a
    float is converted first, and the int [0] a bucket starts from is the
    float [+0.0] it is converted to at its first use. *)

Module B64.

Definition add : spec_float -> spec_float -> spec_float := SFadd 53 1024.
Definition sub : spec_float -> spec_float -> spec_float := SFsub 53 1024.
Definition mul : spec_float -> spec_float -> spec_float := SFmul 53 1024.
Definition div : spec_float -> spec_float -> spec_float := SFdiv 53 1024.

(** The double nearest to the integer [n], an infinity when [n] is beyond
    the largest double. *)
Definition of_Z (n : Z) : spec_float := binary_normalize 53 1024 n 0 false.

Definition zero : spec_float := S754_zero false.
Definition one : spec_float := Eval vm_compute in of_Z 1.
Definition infinity : spec_float := S754_infinity false.

Definition is_infinite (x : spec_float) : bool :=
  match x with
  | S754_infinity _ => true
  | _ => false
  end.

(** Neither an infinity nor NaN. *)
Definition is_finite (x : spec_float) : bool :=
  match x with
  | S754_zero _ | S754_finite _ _ _ => true
  | _ => false
  end.

(** The same double, the sign of a zero aside. *)
Definition same_number (x y : spec_float) : Prop :=
  x = y \/ exists s s', x = S754_zero s /\ y = S754_zero s'.

(** The conversion of an [int] operand of a float operation:
    [OverflowError] when the int is too large for a double. *)
Definition of_int (n : Z) : res spec_float :=
  let x := of_Z n in
  if is_infinite x then Raise OverflowError else Ok x.

(** The same constructor and the same fields. *)
Definition eqb (x y : spec_float) : bool :=
  match x, y with
  | S754_zero s, S754_zero s' => Bool.eqb s s'
  | S754_infinity s, S754_infinity s' => Bool.eqb s s'
  | S754_nan, S754_nan => true
  | S754_finite s m e, S754_finite s' m' e' =>
      Bool.eqb s s' && Pos.eqb m m' && Z.eqb e e'
  | _, _ => false
  end.


(** The [jde] a caller passes: the script passes ints, the specification
    speaks of reals. *)
Inductive number : Type :=
| PyInt (n : Z)
| PyFloat (x : spec_float).

(** [T = (jde - 2451545) / 365250.0]: with an int [jde] the subtraction is
    the integer one and its result is converted for the division; with a
    float [jde] the int [2451545] is converted and both operations are float
    operations. *)
Definition time_argument (jde : number) : res spec_float :=
  match jde with
  | PyInt n =>
      d <- of_int (n - 2451545) ;;
      Ok (div d (of_Z 365250))
  | PyFloat x =>
      c <- of_int 2451545 ;;
      Ok (div (sub x c) (of_Z 365250))
  end.


Record locals : Type := Locals {
  sums : list (list spec_float);
  currentVar : Z;
  currentTerm : Z
}.

Definition zero_row : list spec_float := [zero; zero; zero; zero; zero; zero].

Definition initial : locals :=
  {| sums := [zero_row; zero_row; zero_row];
     currentVar := 0;
     currentTerm := 0 |}.

Section Engine.

(** The builtins [float] (on a token), [math.cos] and [pow]. *)
Variable float : string -> option spec_float.
Variable math_cos : spec_float -> res spec_float.
Variable pow : spec_float -> Z -> res spec_float.

Definition to_float (tok : string) : res spec_float :=
  or_raise ValueError (float tok).

(** [float(c[0]) * math.cos(float(c[1]) + float(c[2]) * T)] *)
Definition computeTerm (line : string) (T : spec_float) : res spec_float :=
  let c := extractCoefficients line in
  c0 <- PyList.get c 0 ;;
  A <- to_float c0 ;;
  c1 <- PyList.get c 1 ;;
  B <- to_float c1 ;;
  c2 <- PyList.get c 2 ;;
  C <- to_float c2 ;;
  cv <- math_cos (add B (mul C T)) ;;
  Ok (mul A cv).

(** [sums[currentVar][currentTerm] += computeTerm(line, T)] *)
Definition accumulate (T : spec_float) (st : locals) (line : string)
    : res locals :=
  row <- PyList.get (sums st) (currentVar st) ;;
  old <- PyList.get row (currentTerm st) ;;
  x <- computeTerm line T ;;
  row' <- PyList.set row (currentTerm st) (add old x) ;;
  sums' <- PyList.set (sums st) (currentVar st) row' ;;
  Ok {| sums := sums';
        currentVar := currentVar st;
        currentTerm := currentTerm st |}.

Definition loop_body (T : spec_float) (st : locals) (line : string)
    : res locals :=
  if (String.length line =? 0)%nat then Ok st
  else
    c <- Str.index line 1 ;;
    if Ascii.eqb c "V" then
      vd <- header_indices line ;;
      Ok {| sums := sums st; currentVar := fst vd; currentTerm := snd vd |}
    else accumulate T st line.

Fixpoint run_lines (T : spec_float) (st : locals) (lines : list string)
    : res locals :=
  match lines with
  | [] => Ok st
  | line :: rest => st' <- loop_body T st line ;; run_lines T st' rest
  end.

(** One item of the returned list, its operands evaluated left to
    right. *)
Definition coordinate (s : list (list spec_float)) (T : spec_float) (v : Z)
    : res spec_float :=
  row <- PyList.get s v ;;
  s0 <- PyList.get row 0 ;;
  s1 <- PyList.get row 1 ;;
  s2 <- PyList.get row 2 ;;
  p2 <- pow T 2 ;;
  s3 <- PyList.get row 3 ;;
  p3 <- pow T 3 ;;
  s4 <- PyList.get row 4 ;;
  p4 <- pow T 4 ;;
  Ok (add (add (add (add s0 (mul s1 T)) (mul s2 p2)) (mul s3 p3)) (mul s4 p4)).

Definition position_of (s : list (list spec_float)) (T : spec_float)
    : res (list spec_float) :=
  x <- coordinate s T 0 ;;
  y <- coordinate s T 1 ;;
  z <- coordinate s T 2 ;;
  Ok [x; y; z].

(** The loop and the return expression, for a table and a time argument
    at hand. *)
Definition evaluate (table : list string) (T : spec_float)
    : res (list spec_float) :=
  st <- run_lines T initial table ;;
  position_of (sums st) T.

(** [getPlanetPosition]: the name is looked up, then [T] is computed,
    then the loop reads [indata[pI]]. *)
Definition getPlanetPosition (planetName : string) (jde : number)
    : M (list spec_float) :=
  pI <~ lift (PyList.index_of planetNames planetName) ;;
  T <~ lift (time_argument jde) ;;
  table <~ read_table pI ;;
  lift (evaluate table T).

End Engine.

(** The value in bucket (variable [v], degree [d]). *)
Definition bucket (s : list (list spec_float)) (v d : nat) : spec_float :=
  nth d (nth v s []) zero.

Definition shaped (s : list (list spec_float)) : Prop :=
  length s = 3%nat /\ Forall (fun row => length row = 6%nat) s.

(** What the function returns for variable [v], given the three powers of
    [T]. *)
Definition returned (s : list (list spec_float)) (T p2 p3 p4 : spec_float)
    (v : nat) : spec_float :=
  add (add (add (add (bucket s v 0) (mul (bucket s v 1) T))
                (mul (bucket s v 2) p2))
           (mul (bucket s v 3) p3))
      (mul (bucket s v 4) p4).

(** A header line with the data lines under it, together with the indices
    the header is read as and the values the data lines are read as. *)
Record block : Type := Block {
  b_header : string;
  b_var : nat;
  b_deg : nat;
  b_lines : list string;
  b_terms : list spec_float
}.

Definition lines_of (b : block) : list string := b_header b :: b_lines b.

Definition table_of (bs : list block) : list string :=
  concat (map lines_of bs).

(** The terms of the blocks for bucket ([v], [d]), in the order of the
    table. *)
Definition terms_for (v d : nat) (bs : list block) : list spec_float :=
  concat (map (fun b =>
                 if ((b_var b =? v) && (b_deg b =? d))%nat then b_terms b
                 else []) bs).

Definition well_formed (float : string -> option spec_float)
    (math_cos : spec_float -> res spec_float) (T : spec_float) (b : block)
    : Prop :=
  classify (b_header b) = Header /\
  header_indices (b_header b) = Ok (Z.of_nat (b_var b), Z.of_nat (b_deg b)) /\
  (b_var b < 3)%nat /\ (b_deg b < 6)%nat /\
  Forall2 (fun line x =>
             classify line = Data /\ computeTerm float math_cos line T = Ok x)
    (b_lines b) (b_terms b).

(** *** Builtins at the arguments of the sample tables *)

(** [float] on decimal literals that one rounding settles: zeros, whole
    numbers (an infinity when beyond the largest double), and fractions
    [m / 10 ^ k] with [m] below [2 ^ 53] and [k] at most 22. *)
Definition dec_float (s : string) : option spec_float :=
  match Dec.parse s with
  | Some (0, _) =>
      Some (S754_zero (match s with String "-" _ => true | _ => false end))
  | Some (m, e) =>
      if 0 <=? e then Some (of_Z (m * 10 ^ e))
      else if (Z.abs m <? 2 ^ 53) && (- e <=? 22)
           then Some (div (of_Z m) (of_Z (10 ^ (- e))))
           else None
  | None => None
  end.

(** [math.cos] where its value is known outright: 1 at a zero, NaN at
    NaN, [ValueError] at an infinity.  No sample table reaches another
    argument; this function is not [math.cos] there. *)
Definition sample_cos (x : spec_float) : res spec_float :=
  match x with
  | S754_zero _ => Ok one
  | S754_nan => Ok S754_nan
  | S754_infinity _ => Raise ValueError
  | S754_finite _ _ _ => Ok S754_nan
  end.


End B64.

(** ** Lists and indices *)

Lemma position_Some (n : nat) (i : Z) (k : nat) :
  PyList.position n i = Some k -> (k < n)%nat.
Proof.
  unfold PyList.position.
  destruct (0 <=? i) eqn:Hs.
  - destruct (i <? Z.of_nat n) eqn:Hlt; [|discriminate].
    intros [= <-]. lia.
  - destruct (- Z.of_nat n <=? i) eqn:Hlo; [|discriminate].
    intros [= <-]. lia.
Qed.

Lemma position_nonneg (n : nat) (i : Z) :
  0 <= i ->
  PyList.position n i =
    if i <? Z.of_nat n then Some (Z.to_nat i) else None.
Proof.
  intros Hi. unfold PyList.position.
  destruct (0 <=? i) eqn:Hs; [reflexivity | lia].
Qed.


Lemma get_Ok {A : Type} (l : list A) (i : Z) (x : A) :
  PyList.get l i = Ok x ->
  exists k, PyList.position (length l) i = Some k /\ l !! k = Some x.
Proof.
  unfold PyList.get.
  destruct (PyList.position (length l) i) as [k|]; [|discriminate].
  destruct (l !! k) as [y|] eqn:Hy; simpl; [|discriminate].
  intros [= <-]. eauto.
Qed.



Lemma set_Ok {A : Type} (l l' : list A) (i : Z) (x : A) :
  PyList.set l i x = Ok l' ->
  exists k, PyList.position (length l) i = Some k /\ l' = <[k := x]> l.
Proof.
  unfold PyList.set.
  destruct (PyList.position (length l) i) as [k|]; [|discriminate].
  intros [= <-]. eauto.
Qed.

Lemma length6_inv (r : list R) :
  length r = 6%nat -> exists a0 a1 a2 a3 a4 a5, r = [a0; a1; a2; a3; a4; a5].
Proof.
  intros H.
  do 6 (destruct r as [|? r]; [discriminate|]).
  destruct r; [|discriminate].
  repeat eexists.
Qed.

Lemma shaped_inv (s : list (list R)) :
  shaped s ->
  exists a0 a1 a2 a3 a4 a5 b0 b1 b2 b3 b4 b5 c0 c1 c2 c3 c4 c5,
    s = [[a0; a1; a2; a3; a4; a5];
         [b0; b1; b2; b3; b4; b5];
         [c0; c1; c2; c3; c4; c5]].
Proof.
  intros [Hlen Hrows].
  do 3 (destruct s as [|? s]; [discriminate|]).
  destruct s; [|discriminate].
  inversion Hrows as [|? ? Ha Hrows1]; subst.
  inversion Hrows1 as [|? ? Hb Hrows2]; subst.
  inversion Hrows2 as [|? ? Hc _]; subst.
  apply length6_inv in Ha as (a0 & a1 & a2 & a3 & a4 & a5 & ->).
  apply length6_inv in Hb as (b0 & b1 & b2 & b3 & b4 & b5 & ->).
  apply length6_inv in Hc as (c0 & c1 & c2 & c3 & c4 & c5 & ->).
  repeat eexists.
Qed.

Lemma shaped_initial : shaped (sums initial).
Proof.
  split; [reflexivity|]. repeat constructor.
Qed.

(** ** The loop *)

Section EngineFacts.

Variable float : string -> option R.

(** The branch an iteration takes is decided by [classify]. *)
Lemma loop_body_cases (T : R) (st : locals) (line : string) :
  loop_body float T st line =
    match classify line with
    | Blank => Ok st
    | Short => Raise IndexError
    | Header =>
        vd <- header_indices line ;;
        Ok {| sums := sums st; currentVar := fst vd; currentTerm := snd vd |}
    | Data => accumulate float T st line
    end.
Proof.
  destruct line as [|a [|c rest]]; try reflexivity.
  unfold loop_body, classify; simpl.
  destruct (Ascii.eqb c "V"); reflexivity.
Qed.

Lemma run_lines_app (T : R) (pre post : list string) (st : locals) :
  run_lines float T st (pre ++ post) =
    (st' <- run_lines float T st pre ;; run_lines float T st' post).
Proof.
  revert st. induction pre as [|line pre IH]; intros st; simpl.
  - reflexivity.
  - destruct (loop_body float T st line) as [st1|e]; simpl; [apply IH | reflexivity].
Qed.


(** A bucket update keeps the three rows of six. *)
Lemma accumulate_inv (T : R) (st st' : locals) (line : string) :
  accumulate float T st line = Ok st' ->
  exists k j row old x,
    sums st !! k = Some row /\ row !! j = Some old /\
    computeTerm float line T = Ok x /\
    st' = {| sums := <[k := <[j := (old + x)%R]> row]> (sums st);
             currentVar := currentVar st;
             currentTerm := currentTerm st |}.
Proof.
  unfold accumulate. intros H.
  destruct (PyList.get (sums st) (currentVar st)) as [row|] eqn:Hrow;
    simpl in H; [|discriminate].
  destruct (PyList.get row (currentTerm st)) as [old|] eqn:Hold;
    simpl in H; [|discriminate].
  destruct (computeTerm float line T) as [x|] eqn:Hx; simpl in H; [|discriminate].
  destruct (PyList.set row (currentTerm st) (old + x)%R) as [row'|] eqn:Hrow';
    simpl in H; [|discriminate].
  destruct (PyList.set (sums st) (currentVar st) row') as [s'|] eqn:Hs';
    simpl in H; [|discriminate].
  injection H as <-.
  apply get_Ok in Hrow as (k & Hk & Hrow).
  apply get_Ok in Hold as (j & Hj & Hold).
  apply set_Ok in Hrow' as (j' & Hj' & ->).
  apply set_Ok in Hs' as (k' & Hk' & ->).
  rewrite Hj in Hj'. injection Hj' as <-.
  rewrite Hk in Hk'. injection Hk' as <-.
  exists k, j, row, old, x. repeat split; assumption.
Qed.

Lemma accumulate_shaped (T : R) (st st' : locals) (line : string) :
  shaped (sums st) ->
  accumulate float T st line = Ok st' ->
  shaped (sums st').
Proof.
  intros [Hlen Hrows] H.
  apply accumulate_inv in H as (k & j & row & old & x & Hk & _ & _ & ->).
  simpl. split.
  - now rewrite length_insert.
  - apply Forall_insert; [assumption|].
    rewrite length_insert.
    exact (proj1 (Forall_lookup _ _) Hrows k row Hk).
Qed.

Lemma loop_body_shaped (T : R) (st st' : locals) (line : string) :
  shaped (sums st) ->
  loop_body float T st line = Ok st' ->
  shaped (sums st').
Proof.
  intros Hs. rewrite loop_body_cases.
  destruct (classify line).
  - now intros [= <-].
  - discriminate.
  - destruct (header_indices line); simpl; [|discriminate].
    now intros [= <-].
  - now apply accumulate_shaped.
Qed.

Lemma run_lines_shaped (T : R) (lines : list string) (st st' : locals) :
  shaped (sums st) ->
  run_lines float T st lines = Ok st' ->
  shaped (sums st').
Proof.
  revert st. induction lines as [|line lines IH]; intros st Hs; simpl.
  - now intros [= <-].
  - destruct (loop_body float T st line) as [st1|e] eqn:H1; simpl; [|discriminate].
    apply IH. eapply loop_body_shaped; eassumption.
Qed.


(** The returned list, for rows of six. *)
Lemma coordinate_shaped (s : list (list R)) (T : R) (v : nat) :
  shaped s -> (v < 3)%nat ->
  coordinate s T (Z.of_nat v) = Ok (returned_polynomial s T v).
Proof.
  intros Hs Hv.
  apply shaped_inv in Hs
    as (a0 & a1 & a2 & a3 & a4 & a5 & b0 & b1 & b2 & b3 & b4 & b5
        & c0 & c1 & c2 & c3 & c4 & c5 & ->).
  destruct v as [|[|[|v]]]; [reflexivity .. | lia].
Qed.

Lemma position_of_shaped (s : list (list R)) (T : R) :
  shaped s ->
  position_of s T =
    Ok [returned_polynomial s T 0;
        returned_polynomial s T 1;
        returned_polynomial s T 2].
Proof.
  intros Hs. unfold position_of.
  change 0 with (Z.of_nat 0). change 1 with (Z.of_nat 1).
  change 2 with (Z.of_nat 2).
  rewrite !coordinate_shaped by (assumption || lia).
  reflexivity.
Qed.

(** The function returns the polynomial of degree 4 in [T] whose
    coefficients are the buckets the loop ends with. *)
Lemma evaluate_returned (table : list string) (jde : R) (st : locals) :
  run_lines float (time_argument jde) initial table = Ok st ->
  evaluate float table jde =
    Ok [returned_polynomial (sums st) (time_argument jde) 0;
        returned_polynomial (sums st) (time_argument jde) 1;
        returned_polynomial (sums st) (time_argument jde) 2].
Proof.
  intros Hrun. unfold evaluate. rewrite Hrun. simpl.
  apply position_of_shaped.
  eapply run_lines_shaped; [exact shaped_initial | exact Hrun].
Qed.

Lemma getPlanetPosition_table (name : string) (jde : R) (g : globals)
    (pI : Z) (table : list string) :
  PyList.index_of planetNames name = Ok pI ->
  PyList.get (indata g) pI = Ok table ->
  getPlanetPosition float name jde g = (evaluate float table jde, g).
Proof.
  intros HpI Htable.
  unfold getPlanetPosition, m_bind, lift, read_table.
  rewrite HpI, Htable.
  destruct (evaluate float table jde); reflexivity.
Qed.

End EngineFacts.

(** ** Terms and buckets *)

Section TermFacts.

Variable float : string -> option R.

Lemma computeTerm_tokens (line a b c : string) (A B C T : R) :
  extractCoefficients line = [a; b; c] ->
  float a = Some A -> float b = Some B -> float c = Some C ->
  computeTerm float line T = Ok (A * cos (B + C * T))%R.
Proof.
  intros Hc Ha Hb Hc'. unfold computeTerm, to_float.
  rewrite Hc.
  change (PyList.get [a; b; c] 0) with (Ok a).
  change (PyList.get [a; b; c] 1) with (Ok b).
  change (PyList.get [a; b; c] 2) with (Ok c).
  simpl. rewrite Ha. simpl. rewrite Hb. simpl. rewrite Hc'.
  reflexivity.
Qed.

(** A term lands in the bucket the current indices name. *)
Lemma accumulate_at (T : R) (st : locals) (line : string) (x : R)
    (v d : nat) :
  shaped (sums st) ->
  currentVar st = Z.of_nat v -> (v < 3)%nat ->
  currentTerm st = Z.of_nat d -> (d < 6)%nat ->
  computeTerm float line T = Ok x ->
  accumulate float T st line =
    Ok {| sums :=
            <[v := <[d := (bucket (sums st) v d + x)%R]> (nth v (sums st) [])]>
              (sums st);
          currentVar := Z.of_nat v;
          currentTerm := Z.of_nat d |}.
Proof.
  intros Hs Hv Hv3 Hd Hd6 Hx.
  destruct st as [s cv ct]; simpl in *; subst cv ct.
  apply shaped_inv in Hs
    as (a0 & a1 & a2 & a3 & a4 & a5 & b0 & b1 & b2 & b3 & b4 & b5
        & c0 & c1 & c2 & c3 & c4 & c5 & ->).
  unfold accumulate; simpl currentVar; simpl currentTerm; simpl sums.
  destruct v as [|[|[|v]]]; [| | |lia];
    (destruct d as [|[|[|[|[|[|d]]]]]]; [| | | | | |lia]);
    rewrite Hx; reflexivity.
Qed.

Lemma run_header_term (T : R) (h l : string) (v d : nat) (x : R) :
  classify h = Header ->
  header_indices h = Ok (Z.of_nat v, Z.of_nat d) ->
  (v < 3)%nat -> (d < 6)%nat ->
  classify l = Data ->
  computeTerm float l T = Ok x ->
  run_lines float T initial [h; l] =
    Ok {| sums := <[v := <[d := (0 + x)%R]> zero_row]> (sums initial);
          currentVar := Z.of_nat v;
          currentTerm := Z.of_nat d |}.
Proof.
  intros Hh Hvd Hv Hd Hl Hx. simpl.
  rewrite loop_body_cases, Hh, Hvd. simpl.
  rewrite loop_body_cases, Hl.
  rewrite (accumulate_at T _ l x v d); simpl;
    try assumption; try reflexivity; try exact shaped_initial.
  destruct v as [|[|[|v]]]; [| | |lia];
    (destruct d as [|[|[|[|[|[|d]]]]]]; [| | | | | |lia]);
    reflexivity.
Qed.

End TermFacts.

(** ** Decimal literals of the sample lines *)

Lemma dec_float_one : dec_float "1.0" = Some 1%R.
Proof.
  unfold dec_float.
  change (Dec.parse "1.0") with (Some (10, -1)).
  f_equal. simpl. lra.
Qed.

Lemma dec_float_zero : dec_float "0.0" = Some 0%R.
Proof.
  unfold dec_float.
  change (Dec.parse "0.0") with (Some (0, -1)).
  f_equal. simpl. lra.
Qed.

Lemma computeTerm_sample (T : R) : computeTerm dec_float sample_term T = Ok 1%R.
Proof.
  rewrite (computeTerm_tokens dec_float sample_term "1.0" "0.0" "0.0" 1 0 0 T);
    [| reflexivity | exact dec_float_one | exact dec_float_zero
     | exact dec_float_zero].
  f_equal. rewrite Rmult_0_l, Rplus_0_l, cos_0. lra.
Qed.

(** ** The returned polynomial *)

(** The sum over six degrees exceeds what the function returns by the
    degree-5 bucket's share. *)
Lemma spec_polynomial_split (s : list (list R)) (T : R) (v : nat) :
  spec_polynomial s T v =
    (returned_polynomial s T v + bucket s v 5 * T ^ 5)%R.
Proof.
  unfold spec_polynomial, returned_polynomial. simpl. ring.
Qed.

Lemma sample_run (T : R) (d : nat) (ds : string) :
  (d < 6)%nat ->
  header_indices (sample_header ds) = Ok (0, Z.of_nat d) ->
  run_lines dec_float T initial [sample_header ds; sample_term] =
    Ok {| sums := <[0%nat := <[d := 1%R]> zero_row]> (sums initial);
          currentVar := 0;
          currentTerm := Z.of_nat d |}.
Proof.
  intros Hd Hh.
  rewrite (run_header_term dec_float T _ _ 0 d 1);
    [ | reflexivity | exact Hh | lia | exact Hd | reflexivity
      | apply computeTerm_sample ].
  rewrite Rplus_0_l. reflexivity.
Qed.

(** C1, at a table the code reads: a header for variable 1 and degree 5,
    then one term of amplitude 1, phase 0, frequency 0, evaluated at
    [jde = 0].  The loop ends with 1 in bucket (0, 5), so the sum over the six
    degrees is [T ^ 5], which is not zero; the function returns 0 for every
    variable: the degree-5 bucket is filled and never read. *)
Theorem C1_degree_five_not_returned :
  let table := [sample_header "5"; sample_term] in
  let T := time_argument 0 in
  exists st,
    run_lines dec_float T initial table = Ok st /\
    bucket (sums st) 0 5 = 1%R /\
    spec_polynomial (sums st) T 0 = (T ^ 5)%R /\
    (T ^ 5 <> 0)%R /\
    result_of (getPlanetPosition dec_float "MERCURY" 0) (sample_globals table)
      = Ok [0; 0; 0]%R.
Proof.
  intros table T.
  assert (Hrun : run_lines dec_float T initial table
                 = Ok {| sums := [[0; 0; 0; 0; 0; 1]%R; zero_row; zero_row];
                         currentVar := 0; currentTerm := 5 |}).
  { unfold table. rewrite (sample_run T 5 "5"); [reflexivity | lia | reflexivity]. }
  eexists. split; [exact Hrun|]. simpl sums.
  split; [reflexivity|].
  split.
  { rewrite spec_polynomial_split.
    unfold returned_polynomial, bucket, zero_row. simpl. ring. }
  split.
  { apply pow_nonzero. unfold T, time_argument. lra. }
  unfold result_of.
  rewrite (getPlanetPosition_table dec_float "MERCURY" 0 _ 0 table);
    [ | reflexivity | reflexivity ].
  simpl fst. fold T in Hrun |- *.
  rewrite (evaluate_returned dec_float table 0 _ Hrun). fold T.
  unfold returned_polynomial, bucket, zero_row. simpl.
  repeat f_equal; ring.
Qed.

(** ** Lines before the first header *)





(** ** Empty lines *)

(** A line of no character at all leaves the variable index, the degree
    index and every bucket as they are, and the table evaluates as it does
    without the line. *)
Lemma empty_string_skipped (float : string -> option R) (T jde : R)
    (st : locals) (pre post : list string) :
  loop_body float T st "" = Ok st /\
  run_lines float T st (pre ++ "" :: post) = run_lines float T st (pre ++ post) /\
  evaluate float (pre ++ "" :: post) jde = evaluate float (pre ++ post) jde.
Proof.
  split; [reflexivity|].
  assert (Hrun : forall T' st',
             run_lines float T' st' (pre ++ "" :: post)
             = run_lines float T' st' (pre ++ post)).
  { intros T' st'. rewrite !run_lines_app.
    destruct (run_lines float T' st' pre); reflexivity. }
  split; [apply Hrun|].
  unfold evaluate. now rewrite Hrun.
Qed.

(** ** Degree indices beyond the buckets *)




(** ** Purity *)

(** A call hands the globals back as it found them. *)
Lemma getPlanetPosition_reads_only (float : string -> option R)
    (name : string) (jde : R) (g : globals) :
  getPlanetPosition float name jde g =
    (result_of (getPlanetPosition float name jde) g, g).
Proof.
  unfold result_of, getPlanetPosition, m_bind, lift, read_table.
  destruct (PyList.index_of planetNames name) as [pI|e]; [|reflexivity].
  destruct (PyList.get (indata g) pI) as [table|e]; [|reflexivity].
  destruct (evaluate float table jde); reflexivity.
Qed.

(** C8: two calls in a row with the same planet and the same [jde] return
    the same thing, whether a list or an exception. *)
Theorem C8_deterministic (float : string -> option R) (name : string)
    (jde : R) (g : globals) :
  result_of (twice (getPlanetPosition float name jde)) g =
    (r <- result_of (getPlanetPosition float name jde) g ;; Ok (r, r)).
Proof.
  unfold twice, m_bind, lift.
  unfold result_of at 1.
  rewrite getPlanetPosition_reads_only.
  destruct (result_of (getPlanetPosition float name jde) g) as [r|e] eqn:Hr;
    [|reflexivity].
  rewrite getPlanetPosition_reads_only, Hr. reflexivity.
Qed.

(** C9: after a call the globals, and with them every planet's table, are
    what they were before it. *)
Theorem C9_table_unchanged (float : string -> option R) (name : string)
    (jde : R) (g : globals) :
  globals_after (getPlanetPosition float name jde) g = g /\
  forall pI,
    PyList.get (indata (globals_after (getPlanetPosition float name jde) g)) pI
    = PyList.get (indata g) pI.
Proof.
  assert (H : globals_after (getPlanetPosition float name jde) g = g)
    by (unfold globals_after; now rewrite getPlanetPosition_reads_only).
  split; [exact H|]. intros pI. now rewrite H.
Qed.

(** ** Headers and data lines *)

(** C10, refuted: a line of one character is not empty and has no ['V']
    at index 1, yet it is not parsed for a term: reading [line[1]] raises
    [IndexError], where parsing the line as a data line raises the
    [ValueError] of [float]. *)
Lemma C10_one_character_line :
  String.length "x" <> 0%nat /\
  Str.index "x" 1 <> Ok "V"%char /\
  loop_body dec_float 0 initial "x" = Raise IndexError /\
  accumulate dec_float 0 initial "x" = Raise ValueError /\
  loop_body dec_float 0 initial "x" <> accumulate dec_float 0 initial "x".
Proof.
  assert (Hbody : loop_body dec_float 0 initial "x" = Raise IndexError)
    by reflexivity.
  assert (Hacc : accumulate dec_float 0 initial "x" = Raise ValueError)
    by reflexivity.
  split; [discriminate|]. split; [discriminate|].
  split; [exact Hbody|]. split; [exact Hacc|].
  rewrite Hbody, Hacc. discriminate.
Qed.

(** C10, as the code has it: a line of two characters or more is a header
    exactly when its character at index 1 is ['V']; a header only sets the
    two indices and leaves every bucket as it is, even when it is a data line
    that happens to have ['V'] there; any other line of two characters or
    more is parsed for a term. *)
Theorem C10_header_iff_V_at_index_1
    (float : string -> option R) (T : R) (st : locals) (line : string) :
  (2 <= String.length line)%nat ->
  (classify line = Header <-> Str.index line 1 = Ok "V"%char) /\
  (Str.index line 1 = Ok "V"%char ->
     loop_body float T st line =
       (vd <- header_indices line ;;
        Ok {| sums := sums st; currentVar := fst vd; currentTerm := snd vd |})
     /\ forall st', loop_body float T st line = Ok st' -> sums st' = sums st) /\
  (Str.index line 1 <> Ok "V"%char ->
     loop_body float T st line = accumulate float T st line).
Proof.
  intros Hlen.
  destruct line as [|a [|c rest]]; simpl in Hlen; [lia | lia |].
  rewrite loop_body_cases. unfold classify, Str.index. simpl.
  destruct (Ascii.eqb_spec c "V") as [->|Hc].
  - split; [tauto|]. split.
    + intros _. split; [reflexivity|].
      intros st'. destruct (header_indices _); simpl; [|discriminate].
      now intros [= <-].
    + intros Hne. now contradiction Hne.
  - split; [|split].
    + split; [discriminate|]. intros [= ->]. now contradiction Hc.
    + intros [= ->]. now contradiction Hc.
    + reflexivity.
Qed.

Lemma C10_header_iff_V_at_index_1_witness :
  (2 <= String.length (sample_header "3"))%nat /\
  Str.index (sample_header "3") 1 = Ok "V"%char /\
  loop_body dec_float 0 initial (sample_header "3") =
    Ok {| sums := sums initial; currentVar := 0; currentTerm := 3 |}.
Proof.
  assert (Hlen : (2 <= String.length (sample_header "3"))%nat)
    by (vm_compute; lia).
  split; [exact Hlen|]. split; [reflexivity|].
  destruct (C10_header_iff_V_at_index_1 dec_float 0 initial
              (sample_header "3") Hlen) as (_ & Hheader & _).
  destruct (Hheader eq_refl) as [-> _]. reflexivity.
Defined.

(** ** Tokens *)

Lemma no_spaces_snoc (tok : string) (c : ascii) :
  no_spaces tok = true -> Str.is_space c = false ->
  no_spaces (tok ++ String c EmptyString) = true.
Proof.
  intros Htok Hc. induction tok as [|a tok IH]; simpl in *.
  - now rewrite Hc.
  - apply andb_true_iff in Htok as [Ha Htok].
    rewrite Ha. simpl. now apply IH.
Qed.

Lemma snoc_not_empty (tok : string) (c : ascii) :
  (tok ++ String c EmptyString)%string <> EmptyString.
Proof.
  destruct tok; discriminate.
Qed.

Lemma flush_tokens (tok : string) :
  no_spaces tok = true -> Forall token (Str.flush tok).
Proof.
  intros Htok. destruct tok; simpl; [constructor|].
  constructor; [|constructor]. split; [discriminate | exact Htok].
Qed.

Lemma split_from_tokens (s tok : string) :
  no_spaces tok = true -> Forall token (Str.split_from tok s).
Proof.
  revert tok. induction s as [|c s IH]; intros tok Htok; simpl.
  - now apply flush_tokens.
  - destruct (Str.is_space c) eqn:Hc.
    + apply Forall_app. split; [now apply flush_tokens | now apply IH].
    + apply IH. now apply no_spaces_snoc.
Qed.


Lemma get_nonneg {A : Type} (l : list A) (i : Z) :
  0 <= i -> PyList.get l i = or_raise IndexError (l !! Z.to_nat i).
Proof.
  intros Hi. unfold PyList.get. rewrite position_nonneg by exact Hi.
  destruct (i <? Z.of_nat (length l)) eqn:Hlt; [reflexivity|].
  rewrite lookup_ge_None_2 by lia. reflexivity.
Qed.

Lemma last3_length {A : Type} (l : list A) :
  length (PyList.last3 l) = Nat.min 3 (length l).
Proof.
  unfold PyList.last3. rewrite length_drop. lia.
Qed.

(** X1: [extractCoefficients] never raises; it returns the last
    [min(3, n)] of the [n] tokens of the line, each of them not empty and free
    of white space. *)
Theorem X1_extractCoefficients_tokens (line : string) :
  length (extractCoefficients line) = Nat.min 3 (length (Str.split line)) /\
  (exists front, Str.split line = (front ++ extractCoefficients line)%list) /\
  Forall token (extractCoefficients line).
Proof.
  unfold extractCoefficients. split; [apply last3_length|]. split.
  - exists (take (length (Str.split line) - 3) (Str.split line)).
    unfold PyList.last3. now rewrite take_drop.
  - unfold PyList.last3. apply Forall_drop.
    now apply split_from_tokens.
Qed.

(** ** What [computeTerm] returns and raises *)

Section TermOutcome.

Variable float : string -> option R.

(** The order in which [computeTerm] reads and converts its tokens. *)
Lemma computeTerm_by_tokens (line : string) (T : R) :
  computeTerm float line T =
    match extractCoefficients line with
    | [] => Raise IndexError
    | a :: rest =>
        A <- to_float float a ;;
        match rest with
        | [] => Raise IndexError
        | b :: rest' =>
            B <- to_float float b ;;
            match rest' with
            | [] => Raise IndexError
            | c :: _ =>
                C <- to_float float c ;; Ok (A * cos (B + C * T))%R
            end
        end
    end.
Proof.
  unfold computeTerm. rewrite !get_nonneg by lia.
  destruct (extractCoefficients line) as [|a [|b [|c rest]]]; reflexivity.
Qed.

Lemma computeTerm_Ok (line : string) (T x : R) :
  computeTerm float line T = Ok x <->
  exists a b c A B C,
    extractCoefficients line = [a; b; c] /\
    float a = Some A /\ float b = Some B /\ float c = Some C /\
    x = (A * cos (B + C * T))%R.
Proof.
  split.
  - rewrite computeTerm_by_tokens.
    assert (Hlen : (length (extractCoefficients line) <= 3)%nat)
      by (unfold extractCoefficients; rewrite last3_length; lia).
    destruct (extractCoefficients line) as [|a [|b [|c rest]]];
      unfold to_float.
    + discriminate.
    + destruct (float a); simpl; discriminate.
    + destruct (float a); simpl; [|discriminate].
      destruct (float b); simpl; discriminate.
    + destruct rest; [|simpl in Hlen; lia].
      destruct (float a) as [A|] eqn:Ha; simpl; [|discriminate].
      destruct (float b) as [B|] eqn:Hb; simpl; [|discriminate].
      destruct (float c) as [C|] eqn:Hc; simpl; [|discriminate].
      intros [= <-]. exists a, b, c, A, B, C.
      repeat split; first [assumption | reflexivity].
  - intros (a & b & c & A & B & C & Hext & Ha & Hb & Hc & ->).
    now apply computeTerm_tokens with (a := a) (b := b) (c := c).
Qed.

End TermOutcome.

(** X3: a term is never larger in absolute value than its amplitude, the
    third token from the end. *)
Theorem X3_computeTerm_amplitude_bound (float : string -> option R)
    (line : string) (T x : R) :
  computeTerm float line T = Ok x ->
  exists a A,
    extractCoefficients line !! 0%nat = Some a /\ float a = Some A /\
    (Rabs x <= Rabs A)%R.
Proof.
  intros H. apply computeTerm_Ok in H
    as (a & b & c & A & B & C & Hext & Ha & _ & _ & ->).
  exists a, A. rewrite Hext. split; [reflexivity|]. split; [exact Ha|].
  rewrite Rabs_mult.
  pose proof (Rabs_pos A) as HA.
  assert (Hcos : (Rabs (cos (B + C * T)) <= 1)%R)
    by (apply Rabs_le, COS_bound).
  nra.
Qed.

Lemma X3_computeTerm_amplitude_bound_witness :
  computeTerm dec_float sample_term 0 = Ok 1%R /\
  exists a A,
    extractCoefficients sample_term !! 0%nat = Some a /\
    dec_float a = Some A /\ (Rabs 1 <= Rabs A)%R.
Proof.
  split; [apply computeTerm_sample|].
  exact (X3_computeTerm_amplitude_bound dec_float sample_term 0 1
           (computeTerm_sample 0)).
Defined.

(** ** The indices a header sets *)

Lemma int_of_char_range (c : ascii) (n : Z) :
  Str.int_of_char c = Ok n -> 0 <= n <= 9.
Proof.
  unfold Str.int_of_char.
  destruct ((48 <=? nat_of_ascii c)%nat && (nat_of_ascii c <=? 57)%nat)
    eqn:Hd; [|discriminate].
  apply andb_true_iff in Hd as [Hlo Hhi].
  apply Nat.leb_le in Hlo. apply Nat.leb_le in Hhi.
  intros [= <-]. lia.
Qed.

Lemma header_indices_inv (line : string) (v d : Z) :
  header_indices line = Ok (v, d) ->
  exists t5 c5 t7 c7,
    Str.split line !! 5%nat = Some t5 /\ String.get 0 t5 = Some c5 /\
    Str.int_of_char c5 = Ok (v + 1) /\
    Str.split line !! 7%nat = Some t7 /\ String.get 4 t7 = Some c7 /\
    Str.int_of_char c7 = Ok d.
Proof.
  unfold header_indices. rewrite !get_nonneg by lia. unfold Str.index.
  change (Z.to_nat 5) with 5%nat. change (Z.to_nat 7) with 7%nat.
  destruct (Str.split line !! 5%nat) as [t5|] eqn:H5; simpl; [|discriminate].
  destruct (String.get 0 t5) as [c5|] eqn:Hc5; simpl; [|discriminate].
  destruct (Str.int_of_char c5) as [v0|] eqn:Hv; simpl; [|discriminate].
  destruct (Str.split line !! 7%nat) as [t7|] eqn:H7; simpl; [|discriminate].
  destruct (String.get 4 t7) as [c7|] eqn:Hc7; simpl; [|discriminate].
  destruct (Str.int_of_char c7) as [d0|] eqn:Hd; simpl; [|discriminate].
  intros [= <- <-]. exists t5, c5, t7, c7.
  replace (v0 - 1 + 1) with v0 by lia. repeat split; assumption || reflexivity.
Qed.

(** X4: the indices a header sets are one decimal digit each: the
    variable index is between -1 and 8, the degree index between 0 and 9.
    Nothing keeps them within the three variables and six degrees of
    [sums]. *)
Theorem X4_header_indices_range (line : string) (v d : Z) :
  header_indices line = Ok (v, d) -> -1 <= v <= 8 /\ 0 <= d <= 9.
Proof.
  intros H.
  apply header_indices_inv in H as (t5 & c5 & t7 & c7 & _ & _ & Hv & _ & _ & Hd).
  apply int_of_char_range in Hv. apply int_of_char_range in Hd. lia.
Qed.

Lemma X4_header_indices_range_witness :
  header_indices (header_for "0" "9") = Ok (-1, 9) /\
  (-1 <= -1 <= 8 /\ 0 <= 9 <= 9).
Proof.
  split; [reflexivity|].
  exact (X4_header_indices_range (header_for "0" "9") (-1) 9 eq_refl).
Defined.

(** ** Which exception a data line raises *)

Section AccumulateOutcome.

Variable float : string -> option R.

(** The bucket is looked up, row first, before the term is computed. *)
Lemma accumulate_outcome (T : R) (st : locals) (line : string) :
  shaped (sums st) ->
  outcome (accumulate float T st line) =
    match PyList.position 3 (currentVar st) with
    | None => Some IndexError
    | Some _ =>
        match PyList.position 6 (currentTerm st) with
        | None => Some IndexError
        | Some _ => outcome (computeTerm float line T)
        end
    end.
Proof.
  intros [Hlen Hrows]. unfold accumulate, PyList.get, PyList.set.
  rewrite Hlen.
  destruct (PyList.position 3 (currentVar st)) as [k|] eqn:Hk; [|reflexivity].
  pose proof (position_Some _ _ _ Hk) as Hk3.
  destruct (lookup_lt_is_Some_2 (sums st) k ltac:(lia)) as [row Hrow].
  rewrite Hrow. simpl.
  pose proof (proj1 (Forall_lookup _ _) Hrows k row Hrow) as Hrow6.
  simpl in Hrow6. rewrite Hrow6.
  destruct (PyList.position 6 (currentTerm st)) as [j|] eqn:Hj; [|reflexivity].
  pose proof (position_Some _ _ _ Hj) as Hj6.
  destruct (lookup_lt_is_Some_2 row j ltac:(lia)) as [old Hold].
  rewrite Hold. simpl.
  destruct (computeTerm float line T); reflexivity.
Qed.

End AccumulateOutcome.


Lemma position_in_range (n : nat) (i : Z) :
  - Z.of_nat n <= i < Z.of_nat n -> exists k, PyList.position n i = Some k.
Proof.
  intros Hi. unfold PyList.position.
  destruct (0 <=? i) eqn:H0.
  - destruct (i <? Z.of_nat n) eqn:H1; [eauto | lia].
  - destruct (- Z.of_nat n <=? i) eqn:H2; [eauto | lia].
Qed.

Lemma position_out_of_range (n : nat) (i : Z) :
  i < - Z.of_nat n \/ Z.of_nat n <= i -> PyList.position n i = None.
Proof.
  intros Hi. unfold PyList.position.
  destruct (0 <=? i) eqn:H0.
  - destruct (i <? Z.of_nat n) eqn:H1; [lia | reflexivity].
  - destruct (- Z.of_nat n <=? i) eqn:H2; [lia | reflexivity].
Qed.

(** X5: what a data line raises, and in which order.  With three rows of
    six buckets, the line raises [IndexError] when the variable index is
    outside -3..2 or the degree index outside -6..5, whatever the line holds;
    otherwise it raises what [computeTerm] raises on it, and nothing when
    [computeTerm] returns. *)
Theorem X5_data_line_outcome (float : string -> option R) (T : R)
    (st : locals) (line : string) :
  shaped (sums st) ->
  classify line = Data ->
  outcome (loop_body float T st line) =
    if (-3 <=? currentVar st) && (currentVar st <=? 2)
       && (-6 <=? currentTerm st) && (currentTerm st <=? 5)
    then outcome (computeTerm float line T)
    else Some IndexError.
Proof.
  intros Hs Hline. rewrite loop_body_cases, Hline.
  rewrite (accumulate_outcome float T st line Hs).
  destruct (-3 <=? currentVar st) eqn:H1; simpl.
  2:{ rewrite position_out_of_range; [reflexivity | simpl; lia]. }
  destruct (currentVar st <=? 2) eqn:H2; simpl.
  2:{ rewrite position_out_of_range; [reflexivity | simpl; lia]. }
  destruct (position_in_range 3 (currentVar st)) as [k ->]; [simpl; lia|].
  destruct (-6 <=? currentTerm st) eqn:H3; simpl.
  2:{ rewrite position_out_of_range; [reflexivity | simpl; lia]. }
  destruct (currentTerm st <=? 5) eqn:H4; simpl.
  2:{ rewrite position_out_of_range; [reflexivity | simpl; lia]. }
  destruct (position_in_range 6 (currentTerm st)) as [j ->]; [simpl; lia|].
  reflexivity.
Qed.

Lemma X5_data_line_outcome_witness :
  shaped (sums initial) /\
  classify sample_term = Data /\
  outcome
    (loop_body dec_float 0
       {| sums := sums initial; currentVar := 3; currentTerm := 0 |}
       sample_term) = Some IndexError.
Proof.
  split; [exact shaped_initial|]. split; [reflexivity|].
  exact (X5_data_line_outcome dec_float 0
           {| sums := sums initial; currentVar := 3; currentTerm := 0 |}
           sample_term shaped_initial eq_refl).
Defined.



(** ** Lines the loop cannot read *)








(** ** Planet names *)

Lemma index_of_absent (l : list string) (x : string) :
  ~ In x l -> PyList.index_of l x = Raise ValueError.
Proof.
  induction l as [|y l IH]; simpl; intros Hin; [reflexivity|].
  destruct (String.eqb_spec y x) as [->|Hne]; [tauto|].
  rewrite IH by tauto. reflexivity.
Qed.

(** X11: for a name that is not one of the eight in [planetNames],
    [getPlanetPosition] raises [ValueError], whatever the time and the
    tables, and leaves the globals alone. *)
Theorem X11_unknown_planet (float : string -> option R) (name : string)
    (jde : R) (g : globals) :
  ~ In name planetNames ->
  getPlanetPosition float name jde g = (Raise ValueError, g).
Proof.
  intros Hin. unfold getPlanetPosition, m_bind, lift.
  now rewrite (index_of_absent planetNames name Hin).
Qed.

Lemma X11_unknown_planet_witness :
  ~ In "PLUTO" planetNames /\
  getPlanetPosition dec_float "PLUTO" 0 (sample_globals [sample_term])
  = (Raise ValueError, sample_globals [sample_term]).
Proof.
  assert (Hin : ~ In "PLUTO" planetNames)
    by (simpl; intuition discriminate).
  split; [exact Hin|].
  exact (X11_unknown_planet dec_float "PLUTO" 0
           (sample_globals [sample_term]) Hin).
Defined.



(** ** Headers in a row *)

(** X13: a header that is read without error and has no data line under
    it leaves no trace: the header after it sets both indices anew, and the
    table evaluates as it does without the first of the two. *)
Theorem X13_later_header_wins (float : string -> option R) (jde : R)
    (pre rest : list string) (h1 h2 : string) (vd : Z * Z) :
  classify h1 = Header ->
  header_indices h1 = Ok vd ->
  classify h2 = Header ->
  evaluate float (pre ++ h1 :: h2 :: rest) jde =
  evaluate float (pre ++ h2 :: rest) jde.
Proof.
  intros H1 Hvd H2. unfold evaluate. rewrite !run_lines_app.
  destruct (run_lines float (time_argument jde) initial pre) as [st|e];
    [|reflexivity].
  simpl. rewrite (loop_body_cases float _ st h1), H1, Hvd. simpl.
  rewrite !loop_body_cases, H2. reflexivity.
Qed.

Lemma X13_later_header_wins_witness :
  classify (header_for "3" "4") = Header /\
  header_indices (header_for "3" "4") = Ok (2, 4) /\
  classify (sample_header "0") = Header /\
  evaluate dec_float
    ([] ++ header_for "3" "4" :: sample_header "0" :: [sample_term]) 0 =
  evaluate dec_float ([] ++ sample_header "0" :: [sample_term]) 0.
Proof.
  split; [reflexivity|]. split; [reflexivity|]. split; [reflexivity|].
  exact (X13_later_header_wins dec_float 0 [] [sample_term]
           (header_for "3" "4") (sample_header "0") (2, 4)
           eq_refl eq_refl eq_refl).
Defined.

(** ** The sweep over the times *)

Lemma jde_range_lookup (n : Z) (k : nat) :
  (k < Z.to_nat n)%nat -> jde_range n !! k = Some (Z.of_nat k).
Proof.
  intros Hk. unfold jde_range.
  rewrite list_lookup_fmap.
  rewrite (proj2 (lookup_seq 0 (Z.to_nat n) k k)); [reflexivity|].
  split; [reflexivity | exact Hk].
Qed.

(** X16: the times the script evaluates, [jde = 0] to [int(jdeMax) - 1],
    all lie before the epoch: their time argument is negative, between -6.72
    and -6.43 millennia. *)
Theorem X16_sweep_before_epoch (k : nat) :
  (k < Z.to_nat jdeMax)%nat ->
  jde_range jdeMax !! k = Some (Z.of_nat k) /\
  (- 672 / 100 < time_argument (IZR (Z.of_nat k)) < - 643 / 100)%R.
Proof.
  intros Hk. split; [now apply jde_range_lookup|].
  assert (H0 : (0 <= IZR (Z.of_nat k))%R) by (apply IZR_le; lia).
  assert (H1 : (IZR (Z.of_nat k) <= 99999)%R)
    by (apply IZR_le; unfold jdeMax in Hk; lia).
  unfold time_argument. lra.
Qed.

Lemma X16_sweep_before_epoch_witness :
  (0 < Z.to_nat jdeMax)%nat /\
  jde_range jdeMax !! 0%nat = Some (Z.of_nat 0) /\
  (- 672 / 100 < time_argument (IZR (Z.of_nat 0)) < - 643 / 100)%R.
Proof.
  assert (H : (0 < Z.to_nat jdeMax)%nat) by (unfold jdeMax; lia).
  split; [exact H|].
  exact (X16_sweep_before_epoch 0 H).
Defined.

(** ** The loop on doubles *)

Lemma last3_app3 {A : Type} (front : list A) (a b c : A) :
  PyList.last3 (front ++ [a; b; c]) = [a; b; c].
Proof.
  unfold PyList.last3. rewrite length_app. simpl.
  replace (length front + 3 - 3)%nat with (length front) by lia.
  now rewrite drop_app_length.
Qed.

Lemma b64_length6_inv (r : list spec_float) :
  length r = 6%nat -> exists a0 a1 a2 a3 a4 a5, r = [a0; a1; a2; a3; a4; a5].
Proof.
  intros H.
  do 6 (destruct r as [|? r]; [discriminate|]).
  destruct r; [|discriminate].
  repeat eexists.
Qed.

Lemma b64_shaped_inv (s : list (list spec_float)) :
  B64.shaped s ->
  exists a0 a1 a2 a3 a4 a5 b0 b1 b2 b3 b4 b5 c0 c1 c2 c3 c4 c5,
    s = [[a0; a1; a2; a3; a4; a5];
         [b0; b1; b2; b3; b4; b5];
         [c0; c1; c2; c3; c4; c5]].
Proof.
  intros [Hlen Hrows].
  do 3 (destruct s as [|? s]; [discriminate|]).
  destruct s; [|discriminate].
  inversion Hrows as [|? ? Ha Hrows1]; subst.
  inversion Hrows1 as [|? ? Hb Hrows2]; subst.
  inversion Hrows2 as [|? ? Hc _]; subst.
  apply b64_length6_inv in Ha as (a0 & a1 & a2 & a3 & a4 & a5 & ->).
  apply b64_length6_inv in Hb as (b0 & b1 & b2 & b3 & b4 & b5 & ->).
  apply b64_length6_inv in Hc as (c0 & c1 & c2 & c3 & c4 & c5 & ->).
  repeat eexists.
Qed.

Lemma b64_shaped_initial : B64.shaped (B64.sums B64.initial).
Proof.
  split; [reflexivity|]. repeat constructor.
Qed.

Section B64Facts.

Variable float : string -> option spec_float.
Variable math_cos : spec_float -> res spec_float.
Variable pow : spec_float -> Z -> res spec_float.

Lemma b64_loop_body_cases (T : spec_float) (st : B64.locals) (line : string) :
  B64.loop_body float math_cos T st line =
    match classify line with
    | Blank => Ok st
    | Short => Raise IndexError
    | Header =>
        vd <- header_indices line ;;
        Ok {| B64.sums := B64.sums st;
              B64.currentVar := fst vd;
              B64.currentTerm := snd vd |}
    | Data => B64.accumulate float math_cos T st line
    end.
Proof.
  destruct line as [|a [|c rest]]; try reflexivity.
  unfold B64.loop_body, classify; simpl.
  destruct (Ascii.eqb c "V"); reflexivity.
Qed.

Lemma b64_run_lines_app (T : spec_float) (pre post : list string)
    (st : B64.locals) :
  B64.run_lines float math_cos T st (pre ++ post) =
    (st' <- B64.run_lines float math_cos T st pre ;;
     B64.run_lines float math_cos T st' post).
Proof.
  revert st. induction pre as [|line pre IH]; intros st; simpl.
  - reflexivity.
  - destruct (B64.loop_body float math_cos T st line) as [st1|e]; simpl;
      [apply IH | reflexivity].
Qed.

(** The last three tokens are read left to right, then [math.cos] is
    called, then the product is taken. *)
Lemma b64_computeTerm_tokens (line a b c : string) (A B C T : spec_float) :
  extractCoefficients line = [a; b; c] ->
  float a = Some A -> float b = Some B -> float c = Some C ->
  B64.computeTerm float math_cos line T =
    (cv <- math_cos (B64.add B (B64.mul C T)) ;; Ok (B64.mul A cv)).
Proof.
  intros Hc Ha Hb Hc'. unfold B64.computeTerm, B64.to_float.
  rewrite Hc.
  change (PyList.get [a; b; c] 0) with (Ok a).
  change (PyList.get [a; b; c] 1) with (Ok b).
  change (PyList.get [a; b; c] 2) with (Ok c).
  simpl. rewrite Ha. simpl. rewrite Hb. simpl. rewrite Hc'.
  reflexivity.
Qed.

Lemma b64_computeTerm_by_tokens (line : string) (T : spec_float) :
  B64.computeTerm float math_cos line T =
    match extractCoefficients line with
    | [] => Raise IndexError
    | a :: rest =>
        A <- B64.to_float float a ;;
        match rest with
        | [] => Raise IndexError
        | b :: rest' =>
            B <- B64.to_float float b ;;
            match rest' with
            | [] => Raise IndexError
            | c :: _ =>
                C <- B64.to_float float c ;;
                cv <- math_cos (B64.add B (B64.mul C T)) ;;
                Ok (B64.mul A cv)
            end
        end
    end.
Proof.
  unfold B64.computeTerm. rewrite !get_nonneg by lia.
  destruct (extractCoefficients line) as [|a [|b [|c rest]]]; reflexivity.
Qed.

Lemma b64_accumulate_inv (T : spec_float) (st st' : B64.locals)
    (line : string) :
  B64.accumulate float math_cos T st line = Ok st' ->
  exists k j row old x,
    B64.sums st !! k = Some row /\ row !! j = Some old /\
    B64.computeTerm float math_cos line T = Ok x /\
    st' = {| B64.sums := <[k := <[j := B64.add old x]> row]> (B64.sums st);
             B64.currentVar := B64.currentVar st;
             B64.currentTerm := B64.currentTerm st |}.
Proof.
  unfold B64.accumulate. intros H.
  destruct (PyList.get (B64.sums st) (B64.currentVar st)) as [row|] eqn:Hrow;
    simpl in H; [|discriminate].
  destruct (PyList.get row (B64.currentTerm st)) as [old|] eqn:Hold;
    simpl in H; [|discriminate].
  destruct (B64.computeTerm float math_cos line T) as [x|] eqn:Hx;
    simpl in H; [|discriminate].
  destruct (PyList.set row (B64.currentTerm st) (B64.add old x)) as [row'|]
    eqn:Hrow'; simpl in H; [|discriminate].
  destruct (PyList.set (B64.sums st) (B64.currentVar st) row') as [s'|]
    eqn:Hs'; simpl in H; [|discriminate].
  injection H as <-.
  apply get_Ok in Hrow as (k & Hk & Hrow).
  apply get_Ok in Hold as (j & Hj & Hold).
  apply set_Ok in Hrow' as (j' & Hj' & ->).
  apply set_Ok in Hs' as (k' & Hk' & ->).
  rewrite Hj in Hj'. injection Hj' as <-.
  rewrite Hk in Hk'. injection Hk' as <-.
  exists k, j, row, old, x. repeat split; assumption.
Qed.

Lemma b64_loop_body_shaped (T : spec_float) (st st' : B64.locals)
    (line : string) :
  B64.shaped (B64.sums st) ->
  B64.loop_body float math_cos T st line = Ok st' ->
  B64.shaped (B64.sums st').
Proof.
  intros Hs. rewrite b64_loop_body_cases.
  destruct (classify line).
  - now intros [= <-].
  - discriminate.
  - destruct (header_indices line); simpl; [|discriminate].
    now intros [= <-].
  - intros H. destruct Hs as [Hlen Hrows].
    apply b64_accumulate_inv in H as (k & j & row & old & x & Hk & _ & _ & ->).
    simpl. split.
    + now rewrite length_insert.
    + apply Forall_insert; [assumption|].
      rewrite length_insert.
      exact (proj1 (Forall_lookup _ _) Hrows k row Hk).
Qed.

Lemma b64_run_lines_shaped (T : spec_float) (lines : list string)
    (st st' : B64.locals) :
  B64.shaped (B64.sums st) ->
  B64.run_lines float math_cos T st lines = Ok st' ->
  B64.shaped (B64.sums st').
Proof.
  revert st. induction lines as [|line lines IH]; intros st Hs; simpl.
  - now intros [= <-].
  - destruct (B64.loop_body float math_cos T st line) as [st1|e] eqn:H1;
      simpl; [|discriminate].
    apply IH. eapply b64_loop_body_shaped; eassumption.
Qed.

(** A term lands in the bucket the current indices name, added to what
    the bucket holds. *)
Lemma b64_accumulate_bucket (T : spec_float) (st : B64.locals)
    (line : string) (x : spec_float) (v d : nat) :
  B64.shaped (B64.sums st) ->
  B64.currentVar st = Z.of_nat v -> (v < 3)%nat ->
  B64.currentTerm st = Z.of_nat d -> (d < 6)%nat ->
  B64.computeTerm float math_cos line T = Ok x ->
  exists st',
    B64.accumulate float math_cos T st line = Ok st' /\
    B64.shaped (B64.sums st') /\
    B64.currentVar st' = B64.currentVar st /\
    B64.currentTerm st' = B64.currentTerm st /\
    forall v' d',
      B64.bucket (B64.sums st') v' d' =
        if ((v' =? v) && (d' =? d))%nat
        then B64.add (B64.bucket (B64.sums st) v d) x
        else B64.bucket (B64.sums st) v' d'.
Proof.
  intros Hs Hv Hv3 Hd Hd6 Hx.
  destruct st as [s cv ct]; simpl in *; subst cv ct.
  apply b64_shaped_inv in Hs
    as (a0 & a1 & a2 & a3 & a4 & a5 & b0 & b1 & b2 & b3 & b4 & b5
        & c0 & c1 & c2 & c3 & c4 & c5 & ->).
  unfold B64.accumulate; simpl B64.currentVar; simpl B64.currentTerm;
    simpl B64.sums.
  rewrite Hx.
  destruct v as [|[|[|v]]]; [| | |lia];
    (destruct d as [|[|[|[|[|[|d]]]]]]; [| | | | | |lia]);
    (eexists; split; [reflexivity|];
     split; [split; [reflexivity | repeat constructor]|];
     split; [reflexivity|]; split; [reflexivity|];
     intros v' d';
     (destruct v' as [|[|[|v']]]; [| | |destruct v']);
     (destruct d' as [|[|[|[|[|[|d']]]]]]; [| | | | | |destruct d']);
     reflexivity).
Qed.

(** With three rows of six the return expression reads its buckets
    without error; what it raises is what [pow] raises, at the exponents 2, 3
    and 4 in this order. *)
Lemma b64_position_of_shaped (s : list (list spec_float)) (T : spec_float) :
  B64.shaped s ->
  B64.position_of pow s T =
    (p2 <- pow T 2 ;;
     p3 <- pow T 3 ;;
     p4 <- pow T 4 ;;
     Ok [B64.returned s T p2 p3 p4 0;
         B64.returned s T p2 p3 p4 1;
         B64.returned s T p2 p3 p4 2]).
Proof.
  intros Hs.
  apply b64_shaped_inv in Hs
    as (a0 & a1 & a2 & a3 & a4 & a5 & b0 & b1 & b2 & b3 & b4 & b5
        & c0 & c1 & c2 & c3 & c4 & c5 & ->).
  unfold B64.position_of, B64.coordinate.
  rewrite !get_nonneg by lia. simpl.
  destruct (pow T 2) as [p2|e2]; simpl; [|reflexivity].
  destruct (pow T 3) as [p3|e3]; simpl; [|reflexivity].
  destruct (pow T 4) as [p4|e4]; simpl; reflexivity.
Qed.


End B64Facts.

(** ** Zeros, infinities and NaN *)

Lemma same_number_refl (x : spec_float) : B64.same_number x x.
Proof.
  now left.
Qed.



Lemma mul_zero_finite (x : spec_float) (b : bool) :
  B64.is_finite x = true -> exists s, B64.mul (S754_zero b) x = S754_zero s.
Proof.
  destruct x; simpl; try discriminate; intros _; eauto.
Qed.


Lemma add_plus_zero_zero (b : bool) :
  B64.add B64.zero (S754_zero b) = B64.zero.
Proof.
  destruct b; reflexivity.
Qed.

(** ** The epoch on doubles *)





(** ** One header, one term, on doubles *)

Lemma b64_bucket_initial (v d : nat) :
  B64.bucket (B64.sums B64.initial) v d = B64.zero.
Proof.
  (destruct v as [|[|[|v]]]; [| | |destruct v]);
    (destruct d as [|[|[|[|[|[|d]]]]]]; [| | | | | |destruct d]);
    reflexivity.
Qed.

Lemma b64_accumulate_raises (float : string -> option spec_float)
    (math_cos : spec_float -> res spec_float) (T : spec_float)
    (st : B64.locals) (line : string) (e : exn) (v d : nat) :
  B64.shaped (B64.sums st) ->
  B64.currentVar st = Z.of_nat v -> (v < 3)%nat ->
  B64.currentTerm st = Z.of_nat d -> (d < 6)%nat ->
  B64.computeTerm float math_cos line T = Raise e ->
  B64.accumulate float math_cos T st line = Raise e.
Proof.
  intros Hs Hv Hv3 Hd Hd6 Hx.
  destruct st as [s cv ct]; simpl in *; subst cv ct.
  apply b64_shaped_inv in Hs
    as (a0 & a1 & a2 & a3 & a4 & a5 & b0 & b1 & b2 & b3 & b4 & b5
        & c0 & c1 & c2 & c3 & c4 & c5 & ->).
  unfold B64.accumulate; simpl B64.currentVar; simpl B64.currentTerm;
    simpl B64.sums.
  rewrite Hx.
  destruct v as [|[|[|v]]]; [| | |lia];
    (destruct d as [|[|[|[|[|[|d]]]]]]; [| | | | | |lia]);
    reflexivity.
Qed.

(** C6, refuted twice.  At [T = inf], the time argument of [jde = inf],
    the term [1.0 0.0 0.0] under a header of degree 3 is
    [1.0 * cos(0.0 + 0.0 * inf)], NaN, and bucket (0, 3) holds NaN, not 1.
    And the term [1.0 0.0 1e308] at [T = -2.0] contributes nothing: its
    three tokens are read, [0.0 + 1e308 * -2.0] is [-inf], and [math.cos]
    raises [ValueError]. *)
Lemma C6_infinite_time_or_argument :
  B64.time_argument (B64.PyFloat B64.infinity) = Ok B64.infinity /\
  (exists st,
      B64.run_lines B64.dec_float B64.sample_cos B64.infinity B64.initial
        [sample_header "3"; sample_term] = Ok st /\
      B64.bucket (B64.sums st) 0 3 = S754_nan) /\
  S754_nan <> B64.one /\
  extractCoefficients "1.0 0.0 1e308" = ["1.0"; "0.0"; "1e308"] /\
  (exists C,
      B64.dec_float "1.0" = Some B64.one /\
      B64.dec_float "0.0" = Some B64.zero /\
      B64.dec_float "1e308" = Some C /\
      B64.is_finite C = true /\
      B64.add B64.zero (B64.mul C (B64.of_Z (-2))) = S754_infinity true) /\
  B64.computeTerm B64.dec_float B64.sample_cos "1.0 0.0 1e308" (B64.of_Z (-2))
  = Raise ValueError.
Proof.
  split; [reflexivity|]. split.
  { eexists. split; [vm_compute; reflexivity | reflexivity]. }
  split; [discriminate|]. split; [reflexivity|]. split.
  { eexists. repeat split; vm_compute; reflexivity. }
  vm_compute. reflexivity.
Qed.

(** C6, as the code has it.  For every finite [T], after a header for
    variable 1 (index 0) and degree 3 and one data line whose last three
    tokens are 1.0, 0.0 and 0.0, bucket (0, 3) holds 1.0 and every other
    bucket [+0.0].  In general a data line whose last three tokens read as
    [A], [B], [C] calls [math.cos] at [B + C * T]; when that returns [cv],
    [A * cv] is added to the bucket of the current variable and degree and to
    no other, and when it raises, the line raises the same. *)
Theorem C6_header_degree_round_trip_finite
    (float : string -> option spec_float)
    (math_cos : spec_float -> res spec_float)
    (T T' : spec_float) (h l : string) (front : list string)
    (st0 : B64.locals) (line : string) (front' : list string)
    (a b c : string) (A B C : spec_float) (v d : nat) :
  float "1.0" = Some B64.one ->
  float "0.0" = Some B64.zero ->
  math_cos B64.zero = Ok B64.one ->
  B64.is_finite T = true ->
  classify h = Header ->
  header_indices h = Ok (0, 3) ->
  classify l = Data ->
  Str.split l = (front ++ ["1.0"; "0.0"; "0.0"])%list ->
  classify line = Data ->
  Str.split line = (front' ++ [a; b; c])%list ->
  float a = Some A -> float b = Some B -> float c = Some C ->
  B64.shaped (B64.sums st0) ->
  B64.currentVar st0 = Z.of_nat v -> (v < 3)%nat ->
  B64.currentTerm st0 = Z.of_nat d -> (d < 6)%nat ->
  (exists st,
      B64.run_lines float math_cos T B64.initial [h; l] = Ok st /\
      forall v' d',
        B64.bucket (B64.sums st) v' d' =
          if ((v' =? 0) && (d' =? 3))%nat then B64.one else B64.zero) /\
  B64.computeTerm float math_cos line T' =
    (cv <- math_cos (B64.add B (B64.mul C T')) ;; Ok (B64.mul A cv)) /\
  (forall cv,
      math_cos (B64.add B (B64.mul C T')) = Ok cv ->
      exists st',
        B64.loop_body float math_cos T' st0 line = Ok st' /\
        forall v' d',
          B64.bucket (B64.sums st') v' d' =
            if ((v' =? v) && (d' =? d))%nat
            then B64.add (B64.bucket (B64.sums st0) v d) (B64.mul A cv)
            else B64.bucket (B64.sums st0) v' d') /\
  (forall e,
      math_cos (B64.add B (B64.mul C T')) = Raise e ->
      B64.loop_body float math_cos T' st0 line = Raise e).
Proof.
  intros H1 H0 Hcos HT Hh Hvd Hl Hsplit Hline Hsplit' Ha Hb Hc Hs Hv Hv3 Hd Hd6.
  assert (Hterm : B64.computeTerm float math_cos line T' =
                    (cv <- math_cos (B64.add B (B64.mul C T')) ;;
                     Ok (B64.mul A cv))).
  { apply b64_computeTerm_tokens with (a := a) (b := b) (c := c);
      try assumption.
    unfold extractCoefficients. rewrite Hsplit'. apply last3_app3. }
  split; [|split; [exact Hterm|split]].
  - assert (Hx : B64.computeTerm float math_cos l T = Ok B64.one).
    { rewrite (b64_computeTerm_tokens float math_cos l "1.0" "0.0" "0.0"
                 B64.one B64.zero B64.zero T);
        [ | unfold extractCoefficients; rewrite Hsplit; apply last3_app3
          | exact H1 | exact H0 | exact H0 ].
      destruct (mul_zero_finite T false HT) as [s Hmul].
      unfold B64.zero at 2. rewrite Hmul, add_plus_zero_zero, Hcos.
      reflexivity. }
    change (B64.run_lines float math_cos T B64.initial [h; l])
      with (st1 <- B64.loop_body float math_cos T B64.initial h ;;
            st2 <- B64.loop_body float math_cos T st1 l ;; Ok st2).
    rewrite b64_loop_body_cases, Hh, Hvd. cbn [res_bind fst snd].
    rewrite b64_loop_body_cases, Hl.
    destruct (b64_accumulate_bucket float math_cos T
                {| B64.sums := B64.sums B64.initial;
                   B64.currentVar := 0; B64.currentTerm := 3 |}
                l B64.one 0 3 b64_shaped_initial eq_refl ltac:(lia) eq_refl
                ltac:(lia) Hx)
      as (st & Hacc & _ & _ & _ & Hb').
    exists st. split; [now rewrite Hacc|]. intros v' d'.
    rewrite Hb'. simpl B64.sums.
    destruct ((v' =? 0) && (d' =? 3))%nat; [reflexivity|].
    apply b64_bucket_initial.
  - intros cv Hcv. rewrite Hcv in Hterm. simpl in Hterm.
    destruct (b64_accumulate_bucket float math_cos T' st0 line _ v d
                Hs Hv Hv3 Hd Hd6 Hterm)
      as (st' & Hacc & _ & _ & _ & Hb').
    exists st'. split; [|exact Hb'].
    rewrite b64_loop_body_cases, Hline. exact Hacc.
  - intros e He. rewrite He in Hterm. simpl in Hterm.
    rewrite b64_loop_body_cases, Hline.
    exact (b64_accumulate_raises float math_cos T' st0 line e v d
             Hs Hv Hv3 Hd Hd6 Hterm).
Qed.

Lemma C6_header_degree_round_trip_finite_witness :
  length (Str.split sample_long_term) = 19%nat /\
  (exists st,
      B64.run_lines B64.dec_float B64.sample_cos (B64.of_Z (-7)) B64.initial
        [sample_header "3"; sample_long_term] = Ok st /\
      forall v' d',
        B64.bucket (B64.sums st) v' d' =
          if ((v' =? 0) && (d' =? 3))%nat then B64.one else B64.zero) /\
  B64.computeTerm B64.dec_float B64.sample_cos sample_long_term B64.zero = Ok B64.one.
Proof.
  split; [reflexivity|].
  destruct (C6_header_degree_round_trip_finite B64.dec_float B64.sample_cos
              (B64.of_Z (-7)) B64.zero (sample_header "3") sample_long_term
              (take 16 (Str.split sample_long_term))
              B64.initial sample_long_term
              (take 16 (Str.split sample_long_term))
              "1.0" "0.0" "0.0" B64.one B64.zero B64.zero 0 0)
    as (Hround & Hterm & _ & _);
    try reflexivity; try lia; try exact b64_shaped_initial.
  split; [exact Hround|]. rewrite Hterm. reflexivity.
Defined.

(** ** The time argument on doubles *)







(** ** Blank lines of a file *)

(** C3, at a table as [readlines] gives it: a header, a term and a blank
    line, which is the one character ["\n"].  The blank line is not skipped:
    [len(line)] is 1, [line[1]] raises [IndexError], and no position is
    returned, where the table without the blank line gives [1, 0, 0]. *)
Theorem C3_blank_line_raises :
  let table := [sample_header "0"; sample_term] in
  String.length newline = 1%nat /\
  all_spaces newline = true /\
  loop_body dec_float (time_argument 0) initial newline = Raise IndexError /\
  result_of (getPlanetPosition dec_float "MERCURY" 0)
    (sample_globals (table ++ [newline])) = Raise IndexError /\
  result_of (getPlanetPosition dec_float "MERCURY" 0) (sample_globals table)
  = Ok [1; 0; 0]%R.
Proof.
  intros table.
  assert (Hrun : run_lines dec_float (time_argument 0) initial table
                 = Ok {| sums := [[1; 0; 0; 0; 0; 0]%R; zero_row; zero_row];
                         currentVar := 0; currentTerm := 0 |}).
  { unfold table.
    rewrite (sample_run (time_argument 0) 0 "0"); [reflexivity | lia | reflexivity]. }
  split; [reflexivity|]. split; [reflexivity|]. split; [reflexivity|].
  unfold result_of. split.
  - rewrite (getPlanetPosition_table dec_float "MERCURY" 0 _ 0
               (table ++ [newline])); [ | reflexivity | reflexivity ].
    simpl fst. unfold evaluate.
    change [sample_header "0"; sample_term; newline]
      with (table ++ [newline])%list.
    rewrite run_lines_app, Hrun. reflexivity.
  - rewrite (getPlanetPosition_table dec_float "MERCURY" 0 _ 0 table);
      [ | reflexivity | reflexivity ].
    simpl fst. rewrite (evaluate_returned dec_float table 0 _ Hrun).
    generalize (time_argument 0). intros T.
    unfold returned_polynomial, bucket, zero_row. simpl.
    repeat f_equal; ring.
Qed.

(** ** Terms, the return expression and tables of blocks, on doubles *)

(** X2: on doubles, [computeTerm] returns a value exactly when the line
    has at least three tokens, [float] accepts each of the last three, and
    [math.cos] returns at [B + C * T] for what they read as; the value is then
    [A] times what [math.cos] returned.  In every other case it raises. *)
Theorem X2_computeTerm_returns_iff
    (float : string -> option spec_float)
    (math_cos : spec_float -> res spec_float)
    (line : string) (T x : spec_float) :
  B64.computeTerm float math_cos line T = Ok x <->
  exists a b c A B C cv,
    extractCoefficients line = [a; b; c] /\
    float a = Some A /\ float b = Some B /\ float c = Some C /\
    math_cos (B64.add B (B64.mul C T)) = Ok cv /\
    x = B64.mul A cv.
Proof.
  split.
  - rewrite b64_computeTerm_by_tokens.
    assert (Hlen : (length (extractCoefficients line) <= 3)%nat)
      by (unfold extractCoefficients; rewrite last3_length; lia).
    destruct (extractCoefficients line) as [|a [|b [|c rest]]];
      unfold B64.to_float.
    + discriminate.
    + destruct (float a); simpl; discriminate.
    + destruct (float a); simpl; [|discriminate].
      destruct (float b); simpl; discriminate.
    + destruct rest; [|simpl in Hlen; lia].
      destruct (float a) as [A|] eqn:Ha; simpl; [|discriminate].
      destruct (float b) as [B|] eqn:Hb; simpl; [|discriminate].
      destruct (float c) as [C|] eqn:Hc; simpl; [|discriminate].
      destruct (math_cos (B64.add B (B64.mul C T))) as [cv|] eqn:Hcv;
        simpl; [|discriminate].
      intros [= <-]. exists a, b, c, A, B, C, cv.
      repeat split; first [assumption | reflexivity].
  - intros (a & b & c & A & B & C & cv & Hext & Ha & Hb & Hc & Hcv & ->).
    rewrite (b64_computeTerm_tokens float math_cos line a b c A B C T
               Hext Ha Hb Hc), Hcv.
    reflexivity.
Qed.

(** X7: on doubles, the loop keeps [sums] at three rows of six buckets,
    so the return expression never raises [IndexError]: when the loop has
    finished, the function raises what [pow] raises, at the exponents 2, 3 and
    4 in this order, and returns a list of three items when [pow] returns at
    all three; when the loop raises, the function raises the same. *)
Theorem X7_three_rows_of_six
    (float : string -> option spec_float)
    (math_cos : spec_float -> res spec_float)
    (pow : spec_float -> Z -> res spec_float)
    (table : list string) (T : spec_float) :
  match B64.run_lines float math_cos T B64.initial table with
  | Raise e => B64.evaluate float math_cos pow table T = Raise e
  | Ok st =>
      B64.shaped (B64.sums st) /\
      B64.evaluate float math_cos pow table T =
        (p2 <- pow T 2 ;;
         p3 <- pow T 3 ;;
         p4 <- pow T 4 ;;
         Ok [B64.returned (B64.sums st) T p2 p3 p4 0;
             B64.returned (B64.sums st) T p2 p3 p4 1;
             B64.returned (B64.sums st) T p2 p3 p4 2])
  end.
Proof.
  destruct (B64.run_lines float math_cos T B64.initial table) as [st|e]
    eqn:Hrun.
  - assert (Hs : B64.shaped (B64.sums st))
      by exact (b64_run_lines_shaped float math_cos T table _ st
                  b64_shaped_initial Hrun).
    split; [exact Hs|].
    unfold B64.evaluate. rewrite Hrun. simpl.
    now apply b64_position_of_shaped.
  - unfold B64.evaluate. now rewrite Hrun.
Qed.

Section B64Blocks.

Variable float : string -> option spec_float.
Variable math_cos : spec_float -> res spec_float.

(** Data lines under one header: the bucket of the header grows by one
    addition per line, in the order of the lines. *)
Lemma b64_run_data_lines (T : spec_float) (v d : nat) (ls : list string)
    (xs : list spec_float) :
  (v < 3)%nat -> (d < 6)%nat ->
  Forall2 (fun line x =>
             classify line = Data /\
             B64.computeTerm float math_cos line T = Ok x) ls xs ->
  forall st,
    B64.shaped (B64.sums st) ->
    B64.currentVar st = Z.of_nat v -> B64.currentTerm st = Z.of_nat d ->
    exists st',
      B64.run_lines float math_cos T st ls = Ok st' /\
      B64.shaped (B64.sums st') /\
      forall v' d',
        B64.bucket (B64.sums st') v' d' =
          if ((v' =? v) && (d' =? d))%nat
          then fold_left B64.add xs (B64.bucket (B64.sums st) v d)
          else B64.bucket (B64.sums st) v' d'.
Proof.
  intros Hv3 Hd6. induction 1 as [|line x ls xs [Hline Hx] _ IH];
    intros st Hs Hv Hd.
  - exists st. split; [reflexivity|]. split; [exact Hs|].
    intros v' d'. simpl.
    destruct ((v' =? v) && (d' =? d))%nat eqn:E; [|reflexivity].
    apply andb_true_iff in E as [Ev Ed].
    apply Nat.eqb_eq in Ev. apply Nat.eqb_eq in Ed. now subst.
  - destruct (b64_accumulate_bucket float math_cos T st line x v d
                Hs Hv Hv3 Hd Hd6 Hx)
      as (st1 & Hacc & Hs1 & Hv1 & Hd1 & Hb1).
    destruct (IH st1 Hs1) as (st' & Hrun & Hs' & Hb');
      [congruence | congruence |].
    exists st'. split.
    + simpl. rewrite b64_loop_body_cases, Hline, Hacc. exact Hrun.
    + split; [exact Hs'|]. intros v' d'.
      rewrite Hb', !Hb1. rewrite !Nat.eqb_refl. simpl.
      destruct ((v' =? v) && (d' =? d))%nat; reflexivity.
Qed.

Lemma b64_run_blocks (T : spec_float) (bs : list B64.block) :
  Forall (B64.well_formed float math_cos T) bs ->
  forall st,
    B64.shaped (B64.sums st) ->
    exists st',
      B64.run_lines float math_cos T st (B64.table_of bs) = Ok st' /\
      B64.shaped (B64.sums st') /\
      forall v d,
        B64.bucket (B64.sums st') v d =
          fold_left B64.add (B64.terms_for v d bs)
            (B64.bucket (B64.sums st) v d).
Proof.
  induction 1 as [|b bs (Hh & Hvd & Hv3 & Hd6 & Hlines) _ IH]; intros st Hs.
  - exists st. split; [reflexivity|]. split; [exact Hs|]. reflexivity.
  - destruct (b64_run_data_lines T (B64.b_var b) (B64.b_deg b)
                (B64.b_lines b) (B64.b_terms b) Hv3 Hd6 Hlines
                {| B64.sums := B64.sums st;
                   B64.currentVar := Z.of_nat (B64.b_var b);
                   B64.currentTerm := Z.of_nat (B64.b_deg b) |}
                Hs eq_refl eq_refl)
      as (st1 & Hrun1 & Hs1 & Hb1).
    destruct (IH st1 Hs1) as (st' & Hrun & Hs' & Hb').
    exists st'. split.
    + change (B64.table_of (b :: bs))
        with (B64.b_header b :: (B64.b_lines b ++ B64.table_of bs))%list.
      cbn [B64.run_lines].
      rewrite b64_loop_body_cases, Hh, Hvd. cbn [res_bind fst snd].
      rewrite b64_run_lines_app, Hrun1. exact Hrun.
    + split; [exact Hs'|]. intros v d.
      rewrite Hb', Hb1. simpl B64.sums.
      unfold B64.terms_for. cbn [map concat]. rewrite fold_left_app.
      rewrite (Nat.eqb_sym v), (Nat.eqb_sym d).
      destruct ((B64.b_var b =? v) && (B64.b_deg b =? d))%nat eqn:E;
        [|reflexivity].
      apply andb_true_iff in E as [Ev Ed].
      apply Nat.eqb_eq in Ev. apply Nat.eqb_eq in Ed. now subst.
Qed.

End B64Blocks.

(** X14: on doubles, in a table made of headers, each for one of the
    three variables and six degrees, with data lines under them whose terms
    [computeTerm] returns, every term is added to the bucket of the header
    above it: the loop ends with, in each bucket, the terms of the blocks for
    that bucket added one by one, in the order of the table, to [+0.0]. *)
Theorem X14_buckets_of_blocks
    (float : string -> option spec_float)
    (math_cos : spec_float -> res spec_float)
    (T : spec_float) (bs : list B64.block) :
  Forall (B64.well_formed float math_cos T) bs ->
  exists st,
    B64.run_lines float math_cos T B64.initial (B64.table_of bs) = Ok st /\
    forall v d,
      B64.bucket (B64.sums st) v d =
        fold_left B64.add (B64.terms_for v d bs) B64.zero.
Proof.
  intros Hbs.
  destruct (b64_run_blocks float math_cos T bs Hbs B64.initial
              b64_shaped_initial) as (st & Hrun & _ & Hb).
  exists st. split; [exact Hrun|].
  intros v d. now rewrite Hb, b64_bucket_initial.
Qed.

Lemma X14_buckets_of_blocks_witness :
  let bs :=
    [ {| B64.b_header := sample_header "3"; B64.b_var := 0; B64.b_deg := 3;
         B64.b_lines := [sample_long_term; sample_term];
         B64.b_terms := [B64.one; B64.one] |};
      {| B64.b_header := header_for "2" "0"; B64.b_var := 1; B64.b_deg := 0;
         B64.b_lines := [sample_term];
         B64.b_terms := [B64.one] |};
      {| B64.b_header := sample_header "3"; B64.b_var := 0; B64.b_deg := 3;
         B64.b_lines := [sample_term];
         B64.b_terms := [B64.one] |} ] in
  fold_left B64.add (B64.terms_for 0 3 bs) B64.zero = B64.of_Z 3 /\
  exists st,
    B64.run_lines B64.dec_float B64.sample_cos B64.zero B64.initial
      (B64.table_of bs) = Ok st /\
    forall v d,
      B64.bucket (B64.sums st) v d =
        fold_left B64.add (B64.terms_for v d bs) B64.zero.
Proof.
  intros bs. split; [vm_compute; reflexivity|].
  apply (X14_buckets_of_blocks B64.dec_float B64.sample_cos B64.zero bs).
  repeat constructor; vm_compute; reflexivity.
Defined.
